(** * hcsr04sensor: the 96Boards measurement class

    A shallow embedding of [hcsr04sensor/sensor_96boards.py] (class
    [Measurement]) and the properties of its sampling routine and of its
    unit-conversion methods.

    Python floats are IEEE-754 binary64 numbers; they are embedded as Rocq's
    primitive floats, whose operations are the same binary64 operations, so
    every definition below evaluates to the value the interpreter computes.
    The sonar hardware and the wall clock are an oracle: the value returned
    by the k-th [digital_read] and by the k-th [time.time()].  Statements
    quantify over all oracles.

    The module is read with the colon that line 83 lacks in print.  With
    it, [raw_distance] stops at line 83 on its unassigned local [GPIO];
    the lines below it are embedded as they are written and their
    properties are stated on them, apart from those of the call. *)

From Stdlib Require Import ZArith List String Bool Lia Permutation.
From Stdlib Require Import Floats.
Import ListNotations.

Set Warnings "-inexact-float".
Local Open Scope Z_scope.

(* ================================================================= *)
(** ** The Python runtime pieces the module relies on *)

(** Exceptions the module raises, directly or through the interpreter. *)
Inductive exn : Type :=
| ValueError (msg : string)
| SystemError (msg : string)
| UnboundLocalError (name : string)
| IndexError (msg : string)
| OverflowError (msg : string).

(** [GPIO.LOW] and [GPIO.HIGH]. *)
Inductive level : Type := LOW | HIGH.

(** What the program does to the outside, newest event first. *)
Inductive event : Type :=
| EvAcquire (ps : list (Z * string))
| EvRelease
| EvWrite (pin : Z) (l : level)
| EvRead (pin : Z) (v : Z)
| EvSleep (secs : float)
| EvTime (t : float).

(** The attributes set by [Measurement.__init__]. *)
Record Measurement : Type := mkMeasurement {
  trig_pin : Z;
  echo_pin : Z;
  temperature : float;
  unit : string;
  round_to : Z;
  pins : list (Z * string)
}.

(** The environment: what the echo pin reads and what the clock shows. *)
Record Oracle : Type := mkOracle {
  echo_level : nat -> Z;
  wall_clock : nat -> float
}.

(** The mutable state: the object [self], how many reads and clock
    samples were consumed, and the trace of I/O events. *)
Record State : Type := mkState {
  self : Measurement;
  reads : nat;
  ticks : nat;
  trace : list event
}.

(** A computation returns, raises, or is still running when the fuel of
    its unbounded loop is used up. *)
Inductive outcome (A : Type) : Type :=
| Ok (a : A) (s : State)
| Raise (e : exn) (s : State)
| Running (s : State).
Arguments Ok {A} a s.
Arguments Raise {A} e s.
Arguments Running {A} s.

Definition M (A : Type) : Type := State -> outcome A.

Definition ret {A} (a : A) : M A := fun s => Ok a s.
Definition raise {A} (e : exn) : M A := fun s => Raise e s.
Definition running {A} : M A := fun s => Running s.

Definition bind {A B} (c : M A) (k : A -> M B) : M B :=
  fun s =>
    match c s with
    | Ok a s' => k a s'
    | Raise e s' => Raise e s'
    | Running s' => Running s'
    end.

Notation "x <- c ;; k" := (bind c (fun x => k))
  (at level 61, c at next level, right associativity).
Notation "c ;;; k" := (bind c (fun _ => k))
  (at level 61, right associativity).

Definition log (e : event) (s : State) : State :=
  mkState (self s) (reads s) (ticks s) (e :: trace s).

Definition emit (e : event) : M Datatypes.unit := fun s => Ok tt (log e s).

Definition get_self : M Measurement := fun s => Ok (self s) s.

(** [self.temperature = t] *)
Definition set_temperature (t : float) : M Datatypes.unit :=
  fun s =>
    let m := self s in
    Ok tt (mkState
             (mkMeasurement (trig_pin m) (echo_pin m) t (unit m) (round_to m) (pins m))
             (reads s) (ticks s) (trace s)).

(** [GPIO.digital_write(pin, l)] *)
Definition digital_write (pin : Z) (l : level) : M Datatypes.unit :=
  emit (EvWrite pin l).

(** [GPIO.digital_read(pin)]: the next value of the oracle. *)
Definition digital_read (env : Oracle) (pin : Z) : M Z :=
  fun s =>
    let v := echo_level env (reads s) in
    Ok v (mkState (self s) (S (reads s)) (ticks s) (EvRead pin v :: trace s)).

(** [time.time()]: the next sample of the clock. *)
Definition time_time (env : Oracle) : M float :=
  fun s =>
    let t := wall_clock env (ticks s) in
    Ok t (mkState (self s) (reads s) (S (ticks s)) (EvTime t :: trace s)).

(** The duration, in nanoseconds, does not fit the interpreter's 64-bit
    time: [secs * 1e9] lies outside [-2^63, 2^63). *)
Definition sleep_overflows (secs : float) : bool :=
  let d := (secs * 1000000000)%float in
  negb (PrimFloat.leb (-9223372036854775808)%float d
        && PrimFloat.ltb d 9223372036854775808%float).

(** [time.sleep(secs)] (CPython 3): the duration is converted first,
    which refuses NaN and durations that overflow, and then refused if
    negative. *)
Definition time_sleep (secs : float) : M Datatypes.unit :=
  if PrimFloat.is_nan secs then
    raise (ValueError "Invalid value NaN (not a number)")
  else if sleep_overflows secs then
    raise (OverflowError "timestamp too large to convert to C _PyTime_t")
  else if PrimFloat.ltb secs 0%float then
    raise (ValueError "sleep length must be non-negative")
  else emit (EvSleep secs).

(** [math.sqrt(x)]: a NaN result on a non-NaN argument is a domain error. *)
Definition math_sqrt (x : float) : M float :=
  let r := PrimFloat.sqrt x in
  if PrimFloat.is_nan r && negb (PrimFloat.is_nan x) then
    raise (ValueError "math domain error")
  else ret r.

(** Reading a local variable that may not have been assigned yet. *)
Definition load {A} (name : string) (v : option A) : M A :=
  match v with
  | Some x => ret x
  | None => raise (UnboundLocalError name)
  end.

(** [l[i]] on a Python list, negative indices counting from the end. *)
Definition getitem (l : list float) (i : Z) : M float :=
  let n := Z.of_nat (List.length l) in
  let j := if i <? 0 then i + n else i in
  if (0 <=? j) && (j <? n) then ret (nth (Z.to_nat j) l 0%float)
  else raise (IndexError "list index out of range").

(** [sorted(l)] on floats, as CPython sorts a list shorter than 64
    elements: the run the list starts with is found (and reversed if it
    descends strictly), then every later element is put in place by a
    binary search that only asks [<].  Lists of 64 elements or more are
    merged run by run by the interpreter; on them this definition agrees
    with it when no element is NaN. *)
Fixpoint run_descending (prev : float) (l : list float) : nat :=
  match l with
  | [] => O
  | x :: l' => if PrimFloat.ltb x prev then S (run_descending x l') else O
  end.

Fixpoint run_ascending (prev : float) (l : list float) : nat :=
  match l with
  | [] => O
  | x :: l' => if PrimFloat.ltb x prev then O else S (run_ascending x l')
  end.

(** The length of the initial run and whether it descends. *)
Definition count_run (l : list float) : nat * bool :=
  match l with
  | [] => (O, false)
  | [x] => (1%nat, false)
  | x0 :: x1 :: rest =>
      if PrimFloat.ltb x1 x0 then (S (S (run_descending x1 rest)), true)
      else (S (S (run_ascending x1 rest)), false)
  end.

(** The binary search of the insertion: between [lo] and [hi]. *)
Fixpoint bisect (fuel : nat) (pivot : float) (a : list float) (lo hi : nat) : nat :=
  match fuel with
  | O => lo
  | S fuel' =>
      if Nat.ltb lo hi then
        let p := (lo + Nat.div2 (hi - lo))%nat in
        if PrimFloat.ltb pivot (nth p a 0%float)
        then bisect fuel' pivot a lo p
        else bisect fuel' pivot a (S p) hi
      else lo
  end.

Definition binary_insert (a : list float) (pivot : float) : list float :=
  let k := bisect (S (List.length a)) pivot a 0 (List.length a) in
  firstn k a ++ pivot :: skipn k a.

Definition sorted (l : list float) : list float :=
  let (n, descending) := count_run l in
  let run := firstn n l in
  fold_left binary_insert (skipn n l) (if descending then rev run else run).

(** The class [GPIO] of [gpio_96boards], the value of a name bound to it. *)
Inductive GPIO_class : Type := gpio_96boards_GPIO.

(** [with GPIO(self.pins) as GPIO:] inside [raw_distance].  The target
    [as GPIO] makes [GPIO] a local variable of the function, so the call
    [GPIO(self.pins)] reads that local ([GPIO] below, [None] while nothing
    was assigned to it) and raises [UnboundLocalError] when it is
    unassigned.  With a value in it the pins are acquired, the body runs
    and the pins are released on every exit.  (Line 83 is printed without
    its colon; it is read with the colon.) *)
Definition with_GPIO {A} (GPIO : option GPIO_class) (ps : list (Z * string))
    (body : M A) : M A :=
  _ <- load "GPIO" GPIO ;;
  fun s =>
    match body (log (EvAcquire ps) s) with
    | Ok a s' => Ok a (log EvRelease s')
    | Raise e s' => Raise e (log EvRelease s')
    | Running s' => Running s'
    end.

(* ================================================================= *)
(** ** class Measurement *)

(** [Measurement.__init__]: stores its arguments, checks nothing. *)
Definition __init__ (trig echo : Z) (temp : float) (u : string) (rnd : Z)
  : exn + Measurement :=
  inr (mkMeasurement trig echo temp u rnd [(trig, "out"%string); (echo, "in"%string)]).

(** The locals of [raw_distance] that outlive one pass of the [for] loop. *)
Record Locals : Type := mkLocals {
  sonar_signal_off : option float;
  sonar_signal_on : option float;
  sample : list float
}.

(** Lines 91-96: [while GPIO.digital_read(self.echo_pin) == 0: ...].
    One unit of fuel per evaluation of the loop condition. *)
Fixpoint wait_low (fuel : nat) (env : Oracle) (pin : Z)
    (echo_status_counter : Z) (off : option float) : M (option float) :=
  match fuel with
  | O => running
  | S fuel' =>
      v <- digital_read env pin ;;
      if v =? 0 then
        if echo_status_counter <? 1000 then
          t <- time_time env ;;
          wait_low fuel' env pin (echo_status_counter + 1) (Some t)
        else raise (SystemError "Echo pulse was not received")
      else ret off
  end.

(** Lines 97-98: [while GPIO.digital_read(self.echo_pin) == 1: ...]. *)
Fixpoint wait_high (fuel : nat) (env : Oracle) (pin : Z)
    (on : option float) : M (option float) :=
  match fuel with
  | O => running
  | S fuel' =>
      v <- digital_read env pin ;;
      if v =? 1 then
        t <- time_time env ;;
        wait_high fuel' env pin (Some t)
      else ret on
  end.

(** Lines 90-101: the two polling loops and the distance of one sample.
    In [sonar_signal_on - sonar_signal_off] the left operand is read
    first. *)
Definition time_echo (fuel : nat) (env : Oracle) (pin : Z)
    (speed_of_sound : float) (loc : Locals) : M Locals :=
  off <- wait_low fuel env pin 1 (sonar_signal_off loc) ;;
  on <- wait_high fuel env pin (sonar_signal_on loc) ;;
  t_on <- load "sonar_signal_on" on ;;
  t_off <- load "sonar_signal_off" off ;;
  let time_passed := (t_on - t_off)%float in
  let distance_cm := (time_passed * ((speed_of_sound * 100) / 2))%float in
  ret (mkLocals off on (sample loc ++ [distance_cm])).

(** Lines 85-101: the body of the [for] loop. *)
Definition reading (fuel : nat) (env : Oracle) (speed_of_sound sample_wait : float)
    (loc : Locals) : M Locals :=
  m <- get_self ;;
  digital_write (trig_pin m) LOW ;;;
  time_sleep sample_wait ;;;
  digital_write (trig_pin m) HIGH ;;;
  time_sleep 0.00001%float ;;;
  digital_write (trig_pin m) LOW ;;;
  time_echo fuel env (echo_pin m) speed_of_sound loc.

(** Line 84: [for distance_reading in range(sample_size)]. *)
Fixpoint readings (n : nat) (fuel : nat) (env : Oracle)
    (speed_of_sound sample_wait : float) (loc : Locals) : M Locals :=
  match n with
  | O => ret loc
  | S n' =>
      loc' <- reading fuel env speed_of_sound sample_wait loc ;;
      readings n' fuel env speed_of_sound sample_wait loc'
  end.

(** Lines 72-78: the unit check, converting the stored temperature. *)
Definition normalize_temperature : M Datatypes.unit :=
  m <- get_self ;;
  if String.eqb (unit m) "imperial" then
    set_temperature ((temperature m - 32) * 0.5556)%float
  else if String.eqb (unit m) "metric" then ret tt
  else raise (ValueError "Wrong Unit Type. Unit Must be imperial or metric").

(** Line 80. *)
Definition compute_speed_of_sound : M float :=
  m <- get_self ;;
  r <- math_sqrt (1 + temperature m / 273.15)%float ;;
  ret (331.3 * r)%float.

(** Lines 81-106: the samples collected under the acquired pins. *)
Definition collect (fuel : nat) (env : Oracle) (sample_size : Z)
    (sample_wait speed_of_sound : float) : M Locals :=
  readings (Z.to_nat sample_size) fuel env speed_of_sound sample_wait
    (mkLocals None None []).

(** Lines 102 and 106: [sorted(sample)[sample_size // 2]]; Python's [//]
    is floor division, which is [Z.div]. *)
Definition sorted_sample_middle (sample : list float) (sample_size : Z) : M float :=
  let sorted_sample := sorted sample in
  getitem sorted_sample (sample_size / 2).

(** Lines 72-80: the speed of sound a call works out. *)
Definition speed_of_sound_of_call : M float :=
  normalize_temperature ;;;
  compute_speed_of_sound.

(** [Measurement.raw_distance(self, sample_size, sample_wait)].  Nothing
    is assigned to the local [GPIO] before line 83 reads it. *)
Definition raw_distance (fuel : nat) (env : Oracle) (sample_size : Z)
    (sample_wait : float) : M float :=
  let GPIO : option GPIO_class := None in
  normalize_temperature ;;;
  speed_of_sound <- compute_speed_of_sound ;;
  m <- get_self ;;
  with_GPIO GPIO (pins m)
    (loc <- collect fuel env sample_size sample_wait speed_of_sound ;;
     sorted_sample_middle (sample loc) sample_size).

(** The four conversion methods; [round] is the interpreter's builtin. *)
Section Conversions.
Variable round : float -> Z -> float.

Definition depth_metric (median_reading hole_depth : float) : M float :=
  m <- get_self ;;
  ret (round (hole_depth - median_reading)%float (round_to m)).

Definition depth_imperial (median_reading hole_depth : float) : M float :=
  m <- get_self ;;
  ret (round (hole_depth - (median_reading * 0.394))%float (round_to m)).

Definition distance_metric (median_reading : float) : M float :=
  m <- get_self ;;
  ret (round median_reading (round_to m)).

Definition distance_imperial (median_reading : float) : M float :=
  m <- get_self ;;
  ret (round (median_reading * 0.394)%float (round_to m)).
End Conversions.

(* ================================================================= *)
(** ** Vocabulary for the statements *)

(** A fresh state around an object. *)
Definition boot (m : Measurement) : State := mkState m 0 0 [].

(** The state after one [digital_read]. *)
Definition after_read (env : Oracle) (pin : Z) (s : State) : State :=
  mkState (self s) (S (reads s)) (ticks s)
          (EvRead pin (echo_level env (reads s)) :: trace s).

(** The state after one [digital_read] followed by one [time.time()]. *)
Definition after_poll (env : Oracle) (pin : Z) (s : State) : State :=
  mkState (self s) (S (reads s)) (S (ticks s))
          (EvTime (wall_clock env (ticks s))
             :: EvRead pin (echo_level env (reads s)) :: trace s).

(** [k] such polls in a row. *)
Fixpoint polled (k : nat) (env : Oracle) (pin : Z) (s : State) : State :=
  match k with
  | O => s
  | S k' => polled k' env pin (after_poll env pin s)
  end.

(** The distance of one sample from its two timestamps (lines 99-100). *)
Definition distance_of (speed_of_sound t_on t_off : float) : float :=
  ((t_on - t_off) * ((speed_of_sound * 100) / 2))%float.

(** The timestamp a polling loop leaves in its variable after [k] passes
    of its body, the first of them at clock position [t0]. *)
Definition stamp (env : Oracle) (t0 k : nat) (before : option float) : option float :=
  match k with
  | O => before
  | S k' => Some (wall_clock env (t0 + k')%nat)
  end.

(** The echo pin reads [v] at the next [k] polls after position [r]. *)
Definition holds_for (env : Oracle) (v : Z) (r k : nat) : Prop :=
  forall j, (j < k)%nat -> echo_level env (r + j)%nat = v.

(** The state in which the trigger pulse of one sample has been sent
    (lines 85-89). *)
Definition triggered (sample_wait : float) (s : State) : State :=
  let t := trig_pin (self s) in
  log (EvWrite t LOW)
    (log (EvSleep 0.00001%float)
       (log (EvWrite t HIGH)
          (log (EvSleep sample_wait)
             (log (EvWrite t LOW) s)))).

(** [time.sleep] accepts the duration. *)
Definition sleepable (secs : float) : bool :=
  negb (PrimFloat.is_nan secs) && negb (sleep_overflows secs)
  && negb (PrimFloat.ltb secs 0%float).

(** The unit is one of the two the module knows. *)
Definition known_unit (u : string) : bool :=
  String.eqb u "imperial" || String.eqb u "metric".

(** The temperature in Celsius as the specification words it: the stored
    temperature for metric, [(F - 32) x 0.5556] for imperial. *)
Definition T_celsius (m : Measurement) : float :=
  if String.eqb (unit m) "imperial" then ((temperature m - 32) * 0.5556)%float
  else temperature m.

(** The speed of sound as the specification words it. *)
Definition speed_formula (t_celsius : float) : float :=
  (331.3 * PrimFloat.sqrt (1 + t_celsius / 273.15))%float.

(** [math.sqrt] accepts the argument built from temperature [t]. *)
Definition sqrt_defined (t_celsius : float) : bool :=
  let x := (1 + t_celsius / 273.15)%float in
  negb (PrimFloat.is_nan (PrimFloat.sqrt x) && negb (PrimFloat.is_nan x)).

(** The object after the assignment of line 73. *)
Definition with_temperature (t : float) (s : State) : State :=
  let m := self s in
  mkState (mkMeasurement (trig_pin m) (echo_pin m) t (unit m) (round_to m) (pins m))
          (reads s) (ticks s) (trace s).

(** The state after lines 72-78 when the unit is known. *)
Definition normalized (s : State) : State :=
  if String.eqb (unit (self s)) "imperial"
  then with_temperature (T_celsius (self s)) s else s.

(** The computation came back: it returned or raised. *)
Definition settled {A} (r : outcome A) : Prop :=
  match r with
  | Running _ => False
  | _ => True
  end.

(** The echo line never stays high for ever. *)
Definition echo_falls (env : Oracle) : Prop :=
  forall r, exists k, echo_level env (r + k)%nat <> 1.

(** A timestamp variable, once assigned, holds a sample of the clock. *)
Definition clocked (env : Oracle) (t : option float) : Prop :=
  forall x, t = Some x -> exists i, x = wall_clock env i.

(** From read position [r] on, each of the next [n] samples meets a
    clean echo: at least one low reading, the rising edge within the poll
    limit, at least one high reading, the falling edge. *)
Fixpoint clean_echoes (env : Oracle) (r : nat) (n : nat) : Prop :=
  match n with
  | O => True
  | S n' =>
      exists a b,
        (S a <= 999)%nat /\
        holds_for env 0 r (S a) /\
        echo_level env (r + S a)%nat <> 0 /\
        holds_for env 1 (S (r + S a)) (S b) /\
        echo_level env (S (r + S a) + S b)%nat <> 1 /\
        clean_echoes env (S (S (r + S a) + S b)) n'
  end.

(* ================================================================= *)
(** ** A bench with a scripted sensor *)

(** An oracle that replays a list of echo readings and then stays at
    [rest], with a clock that replays [stamps] and then stays at 0. *)
Definition scripted (script : list Z) (rest : Z) (stamps : list float) : Oracle :=
  mkOracle (fun k => nth k script rest) (fun k => nth k stamps 0%float).

Definition metric_sensor : Measurement :=
  mkMeasurement 36 13 20%float "metric" 1 [(36, "out"%string); (13, "in"%string)].

Definition imperial_sensor : Measurement :=
  mkMeasurement 36 13 68%float "imperial" 1 [(36, "out"%string); (13, "in"%string)].

Definition kelvin_sensor : Measurement :=
  mkMeasurement 36 13 20%float "kelvin" 1 [(36, "out"%string); (13, "in"%string)].

(** One clean echo per sample: one low poll, the rising edge, two high
    polls, the falling edge. *)
Definition clean_echo : Oracle :=
  scripted [0; 1; 1; 1; 0; 0; 1; 1; 1; 0; 0; 1; 1; 1; 0; 0; 1; 1; 1; 0] 0
           [10.000; 10.001; 10.002; 10.200; 10.2005; 10.2015;
            10.400; 10.4012; 10.4018; 10.600; 10.6004; 10.6012]%float.

(** A sensor that never answers. *)
Definition silent_echo : Oracle := scripted [] 0 [].

(** An echo line that rises after two polls and never falls. *)
Definition stuck_echo : Oracle := scripted [0; 0] 1 [].

(** An echo line that is already high when the first sample polls it. *)
Definition early_echo : Oracle := scripted [1; 1; 0] 0 [10.000]%float.

(** A clean first sample, then an echo that is already high when the
    second sample polls it. *)
Definition late_early_echo : Oracle :=
  scripted [0; 1; 1; 0; 1; 1; 0] 0 [10.000; 10.001; 10.201]%float.

(* ================================================================= *)
(** ** Vocabulary for the behaviour of a whole call *)

(** The state a computation is in when it stops: returned, raised, or
    out of fuel. *)
Definition final {A} (r : outcome A) : State :=
  match r with
  | Ok _ s => s
  | Raise _ s => s
  | Running s => s
  end.

(** One more conversion of line 73. *)
Definition fahrenheit_to_celsius (t : float) : float := ((t - 32) * 0.5556)%float.

(** [k] calls of [raw_distance] in a row on the same object, each with
    its own arguments; the state in which the last one stopped. *)
Fixpoint call_again (calls : list (nat * Oracle * Z * float)) (s : State) : State :=
  match calls with
  | [] => s
  | (fuel, env, n, w) :: rest =>
      call_again rest (final (raw_distance fuel env n w s))
  end.

(** A metric object colder than absolute zero, and an imperial one. *)
Definition frozen_sensor : Measurement :=
  mkMeasurement 36 13 (-300)%float "metric" 1 [(36, "out"%string); (13, "in"%string)].

Definition frozen_imperial_sensor : Measurement :=
  mkMeasurement 36 13 (-500)%float "imperial" 1 [(36, "out"%string); (13, "in"%string)].

(* ================================================================= *)
(** ** The polling loops *)

Lemma reads_polled k env pin s : reads (polled k env pin s) = (reads s + k)%nat.
Proof.
  revert s; induction k as [|k IH]; intros s; simpl.
  - now rewrite Nat.add_0_r.
  - rewrite IH. simpl. lia.
Qed.

Lemma ticks_polled k env pin s : ticks (polled k env pin s) = (ticks s + k)%nat.
Proof.
  revert s; induction k as [|k IH]; intros s; simpl.
  - now rewrite Nat.add_0_r.
  - rewrite IH. simpl. lia.
Qed.

Lemma self_polled k env pin s : self (polled k env pin s) = self s.
Proof.
  revert s; induction k as [|k IH]; intros s; simpl; [reflexivity|].
  now rewrite IH.
Qed.

Lemma holds_for_tail env v r k :
  holds_for env v r (S k) ->
  echo_level env r = v /\ holds_for env v (S r) k.
Proof.
  intros H; split.
  - specialize (H 0%nat). rewrite Nat.add_0_r in H. apply H. lia.
  - intros j Hj. specialize (H (S j)).
    replace (S r + j)%nat with (r + S j)%nat by lia. apply H. lia.
Qed.

Lemma stamp_shift env t0 k before :
  stamp env (S t0) k (Some (wall_clock env t0)) = stamp env t0 (S k) before.
Proof.
  destruct k as [|k]; simpl.
  - now rewrite Nat.add_0_r.
  - f_equal. f_equal. lia.
Qed.

(** One pass of the low loop on a low reading, below the poll limit. *)
Lemma wait_low_pass fuel env pin c off s :
  echo_level env (reads s) = 0 -> c < 1000 ->
  wait_low (S fuel) env pin c off s =
  wait_low fuel env pin (c + 1) (Some (wall_clock env (ticks s))) (after_poll env pin s).
Proof.
  intros Hv Hc. simpl. unfold bind, digital_read. rewrite Hv. simpl.
  apply Z.ltb_lt in Hc. rewrite Hc. unfold time_time. simpl.
  unfold after_poll. rewrite Hv. reflexivity.
Qed.

(** The low loop at the poll limit gives up on a low reading. *)
Lemma wait_low_give_up fuel env pin c off s :
  echo_level env (reads s) = 0 -> 1000 <= c ->
  wait_low (S fuel) env pin c off s =
  Raise (SystemError "Echo pulse was not received") (after_read env pin s).
Proof.
  intros Hv Hc. simpl. unfold bind, digital_read. rewrite Hv. simpl.
  apply Z.ltb_ge in Hc. rewrite Hc. unfold raise, after_read.
  rewrite Hv. reflexivity.
Qed.

(** The low loop ends on the first reading that is not low. *)
Lemma wait_low_exit fuel env pin c off s :
  echo_level env (reads s) <> 0 ->
  wait_low (S fuel) env pin c off s = Ok off (after_read env pin s).
Proof.
  intros Hv. simpl. unfold bind, digital_read.
  apply Z.eqb_neq in Hv. rewrite Hv. reflexivity.
Qed.

(** [k] low readings and then the edge: the loop returns with the clock
    sampled after the last low reading. *)
Lemma wait_low_edge env pin k : forall fuel c off s,
  holds_for env 0 (reads s) k ->
  echo_level env (reads s + k)%nat <> 0 ->
  c + Z.of_nat k <= 1000 ->
  (k < fuel)%nat ->
  wait_low fuel env pin c off s =
  Ok (stamp env (ticks s) k off) (after_read env pin (polled k env pin s)).
Proof.
  induction k as [|k IH]; intros fuel c off s Hlow Hedge Hc Hfuel.
  - destruct fuel as [|fuel]; [lia|].
    rewrite Nat.add_0_r in Hedge. now apply wait_low_exit.
  - destruct fuel as [|fuel]; [lia|].
    apply holds_for_tail in Hlow. destruct Hlow as [H0 Hlow].
    rewrite wait_low_pass by (auto; lia).
    assert (Hedge' : echo_level env (reads (after_poll env pin s) + k)%nat <> 0).
    { change (echo_level env (S (reads s) + k)%nat <> 0).
      now replace (S (reads s) + k)%nat with (reads s + S k)%nat by lia. }
    rewrite (IH fuel (c + 1) _ (after_poll env pin s) Hlow Hedge') by lia.
    simpl polled. simpl ticks. now rewrite stamp_shift with (before := off).
Qed.

(** Low readings up to the limit: the loop raises after exactly
    [1001 - c] polls. *)
Lemma wait_low_timeout env pin k : forall fuel c off s,
  holds_for env 0 (reads s) (S k) ->
  c + Z.of_nat k = 1000 ->
  (k < fuel)%nat ->
  wait_low fuel env pin c off s =
  Raise (SystemError "Echo pulse was not received")
        (after_read env pin (polled k env pin s)).
Proof.
  induction k as [|k IH]; intros fuel c off s Hlow Hc Hfuel.
  - destruct fuel as [|fuel]; [lia|].
    apply holds_for_tail in Hlow. destruct Hlow as [H0 _].
    apply wait_low_give_up; auto; lia.
  - destruct fuel as [|fuel]; [lia|].
    apply holds_for_tail in Hlow. destruct Hlow as [H0 Hlow].
    rewrite wait_low_pass by (auto; lia).
    now rewrite (IH fuel (c + 1) _ (after_poll env pin s) Hlow) by lia.
Qed.

(** While the echo stays low below the poll limit the loop uses up the
    fuel it is given. *)
Lemma wait_low_starved env pin : forall fuel c off s,
  holds_for env 0 (reads s) fuel ->
  c + Z.of_nat fuel <= 1000 ->
  exists s', wait_low fuel env pin c off s = Running s'.
Proof.
  induction fuel as [|fuel IH]; intros c off s Hlow Hc.
  - now exists s.
  - apply holds_for_tail in Hlow. destruct Hlow as [H0 Hlow].
    rewrite wait_low_pass by (auto; lia).
    apply (IH _ _ (after_poll env pin s) Hlow). lia.
Qed.

Lemma holds_for_cons env v r k :
  echo_level env r = v -> holds_for env v (S r) k -> holds_for env v r (S k).
Proof.
  intros H0 H j Hj. destruct j as [|j].
  - now rewrite Nat.add_0_r.
  - replace (r + S j)%nat with (S r + j)%nat by lia. apply H. lia.
Qed.

Lemma holds_for_nil env v r : holds_for env v r 0.
Proof. intros j Hj. lia. Qed.

(** Every way the low loop can end, read back from its outcome. *)
Lemma wait_low_outcome env pin : forall fuel c off s,
  c <= 1000 ->
  match wait_low fuel env pin c off s with
  | Ok off' s' =>
      exists k, holds_for env 0 (reads s) k /\
                echo_level env (reads s + k)%nat <> 0 /\
                c + Z.of_nat k <= 1000 /\ (k < fuel)%nat /\
                off' = stamp env (ticks s) k off /\
                s' = after_read env pin (polled k env pin s)
  | Raise e s' =>
      exists k, holds_for env 0 (reads s) (S k) /\
                c + Z.of_nat k = 1000 /\ (k < fuel)%nat /\
                e = SystemError "Echo pulse was not received" /\
                s' = after_read env pin (polled k env pin s)
  | Running s' =>
      holds_for env 0 (reads s) fuel /\ c + Z.of_nat fuel <= 1000 /\
      s' = polled fuel env pin s
  end.
Proof.
  induction fuel as [|fuel IH]; intros c off s Hc.
  - simpl. unfold running. repeat split; auto using holds_for_nil. lia.
  - destruct (Z.eq_dec (echo_level env (reads s)) 0) as [H0|H0].
    + destruct (Z_lt_ge_dec c 1000) as [Hlt|Hge].
      * rewrite wait_low_pass by assumption.
        assert (Hc' : c + 1 <= 1000) by lia.
        specialize (IH (c + 1) (Some (wall_clock env (ticks s)))
                       (after_poll env pin s) Hc').
        destruct (wait_low fuel env pin (c + 1) _ (after_poll env pin s))
          as [off' s'|e s'|s'].
        -- destruct IH as (k & Hlow & Hedge & Hk & Hf & Hoff & Hs).
           exists (S k). repeat split.
           ++ now apply holds_for_cons.
           ++ now replace (reads s + S k)%nat with (S (reads s) + k)%nat by lia.
           ++ lia.
           ++ lia.
           ++ rewrite Hoff. apply stamp_shift.
           ++ exact Hs.
        -- destruct IH as (k & Hlow & Hk & Hf & He & Hs).
           exists (S k). repeat split; auto; try lia.
           now apply holds_for_cons.
        -- destruct IH as (Hlow & Hk & Hs).
           repeat split; auto; try lia. now apply holds_for_cons.
      * rewrite wait_low_give_up by (auto; lia).
        exists 0%nat. repeat split; auto; try lia.
        apply holds_for_cons; auto using holds_for_nil.
    + rewrite wait_low_exit by assumption.
      exists 0%nat. rewrite Nat.add_0_r.
      repeat split; auto using holds_for_nil; lia.
Qed.

(** One pass of the high loop on a high reading. *)
Lemma wait_high_pass fuel env pin on s :
  echo_level env (reads s) = 1 ->
  wait_high (S fuel) env pin on s =
  wait_high fuel env pin (Some (wall_clock env (ticks s))) (after_poll env pin s).
Proof.
  intros Hv. simpl. unfold bind, digital_read. rewrite Hv. simpl.
  unfold time_time. simpl. unfold after_poll. rewrite Hv. reflexivity.
Qed.

(** The high loop ends on the first reading that is not high. *)
Lemma wait_high_exit fuel env pin on s :
  echo_level env (reads s) <> 1 ->
  wait_high (S fuel) env pin on s = Ok on (after_read env pin s).
Proof.
  intros Hv. simpl. unfold bind, digital_read.
  apply Z.eqb_neq in Hv. rewrite Hv. reflexivity.
Qed.

(** [k] high readings and then the falling edge. *)
Lemma wait_high_edge env pin k : forall fuel on s,
  holds_for env 1 (reads s) k ->
  echo_level env (reads s + k)%nat <> 1 ->
  (k < fuel)%nat ->
  wait_high fuel env pin on s =
  Ok (stamp env (ticks s) k on) (after_read env pin (polled k env pin s)).
Proof.
  induction k as [|k IH]; intros fuel on s Hhigh Hedge Hfuel.
  - destruct fuel as [|fuel]; [lia|].
    rewrite Nat.add_0_r in Hedge. now apply wait_high_exit.
  - destruct fuel as [|fuel]; [lia|].
    apply holds_for_tail in Hhigh. destruct Hhigh as [H0 Hhigh].
    rewrite wait_high_pass by assumption.
    assert (Hedge' : echo_level env (reads (after_poll env pin s) + k)%nat <> 1).
    { change (echo_level env (S (reads s) + k)%nat <> 1).
      now replace (S (reads s) + k)%nat with (reads s + S k)%nat by lia. }
    rewrite (IH fuel _ (after_poll env pin s) Hhigh Hedge') by lia.
    simpl polled. simpl ticks. now rewrite stamp_shift with (before := on).
Qed.

(** While the echo stays high the loop uses up any fuel it is given. *)
Lemma wait_high_stuck env pin : forall fuel on s,
  holds_for env 1 (reads s) fuel ->
  wait_high fuel env pin on s = Running (polled fuel env pin s).
Proof.
  induction fuel as [|fuel IH]; intros on s Hhigh.
  - reflexivity.
  - apply holds_for_tail in Hhigh. destruct Hhigh as [H0 Hhigh].
    rewrite wait_high_pass by assumption.
    now rewrite (IH _ (after_poll env pin s) Hhigh).
Qed.

(** Every way the high loop can end, read back from its outcome. *)
Lemma wait_high_outcome env pin : forall fuel on s,
  match wait_high fuel env pin on s with
  | Ok on' s' =>
      exists k, holds_for env 1 (reads s) k /\
                echo_level env (reads s + k)%nat <> 1 /\
                (k < fuel)%nat /\
                on' = stamp env (ticks s) k on /\
                s' = after_read env pin (polled k env pin s)
  | Raise _ _ => False
  | Running s' =>
      holds_for env 1 (reads s) fuel /\ s' = polled fuel env pin s
  end.
Proof.
  induction fuel as [|fuel IH]; intros on s.
  - simpl. unfold running. split; auto using holds_for_nil.
  - destruct (Z.eq_dec (echo_level env (reads s)) 1) as [H1|H1].
    + rewrite wait_high_pass by assumption.
      specialize (IH (Some (wall_clock env (ticks s))) (after_poll env pin s)).
      destruct (wait_high fuel env pin _ (after_poll env pin s))
        as [on' s'|e s'|s'].
      * destruct IH as (k & Hhigh & Hedge & Hf & Hon & Hs).
        exists (S k). repeat split.
        -- now apply holds_for_cons.
        -- now replace (reads s + S k)%nat with (S (reads s) + k)%nat by lia.
        -- lia.
        -- rewrite Hon. apply stamp_shift.
        -- exact Hs.
      * exact IH.
      * destruct IH as (Hhigh & Hs). split; auto. now apply holds_for_cons.
    + rewrite wait_high_exit by assumption.
      exists 0%nat. rewrite Nat.add_0_r.
      repeat split; auto using holds_for_nil; lia.
Qed.

(* ================================================================= *)
(** ** One sample *)

Lemma self_after_read env pin s : self (after_read env pin s) = self s.
Proof. reflexivity. Qed.

Lemma self_triggered w s : self (triggered w s) = self s.
Proof. reflexivity. Qed.

Lemma reads_triggered w s : reads (triggered w s) = reads s.
Proof. reflexivity. Qed.

Lemma ticks_triggered w s : ticks (triggered w s) = ticks s.
Proof. reflexivity. Qed.

(** With an acceptable wait the loop body sends the trigger pulse and
    times the echo. *)
Lemma reading_triggered fuel env v w loc s :
  sleepable w = true ->
  reading fuel env v w loc s =
  time_echo fuel env (echo_pin (self s)) v loc (triggered w s).
Proof.
  unfold sleepable. intros Hw.
  apply andb_prop in Hw. destruct Hw as [Hw Hl].
  apply andb_prop in Hw. destruct Hw as [Hn Ho].
  apply negb_true_iff in Hn. apply negb_true_iff in Ho.
  apply negb_true_iff in Hl.
  unfold reading, bind, get_self, digital_write, emit, time_sleep.
  rewrite Hn, Ho, Hl. reflexivity.
Qed.

(** The echo timed from given edges: [kl] low polls, the rising edge,
    [kh] high polls, the falling edge. *)
Lemma time_echo_run fuel env pin v loc s kl kh :
  holds_for env 0 (reads s) kl ->
  echo_level env (reads s + kl)%nat <> 0 ->
  (kl <= 999)%nat ->
  holds_for env 1 (S (reads s + kl)) kh ->
  echo_level env (S (reads s + kl) + kh)%nat <> 1 ->
  (kl < fuel)%nat -> (kh < fuel)%nat ->
  time_echo fuel env pin v loc s =
  (t_on <- load "sonar_signal_on"
             (stamp env (ticks s + kl) kh (sonar_signal_on loc)) ;;
   t_off <- load "sonar_signal_off"
             (stamp env (ticks s) kl (sonar_signal_off loc)) ;;
   ret (mkLocals (stamp env (ticks s) kl (sonar_signal_off loc))
                 (stamp env (ticks s + kl) kh (sonar_signal_on loc))
                 (sample loc ++ [distance_of v t_on t_off])))
    (after_read env pin (polled kh env pin (after_read env pin (polled kl env pin s)))).
Proof.
  intros Hlow Hrise Hkl Hhigh Hfall Hf1 Hf2.
  unfold time_echo. unfold bind at 1.
  rewrite (wait_low_edge env pin kl fuel 1 _ s Hlow Hrise) by lia.
  unfold bind at 1.
  set (s1 := after_read env pin (polled kl env pin s)).
  assert (Hr : reads s1 = S (reads s + kl)).
  { unfold s1. simpl. now rewrite reads_polled. }
  assert (Ht : ticks s1 = (ticks s + kl)%nat).
  { unfold s1. simpl. now rewrite ticks_polled. }
  rewrite (wait_high_edge env pin kh fuel _ s1); rewrite ?Hr, ?Ht; auto.
Qed.

(** A sample that was appended, read back from the outcome: the polls that
    were made, the two timestamps and the distance computed from them. *)
Lemma time_echo_ok fuel env pin v loc s loc' s' :
  time_echo fuel env pin v loc s = Ok loc' s' ->
  exists kl kh t_off t_on,
    holds_for env 0 (reads s) kl /\
    echo_level env (reads s + kl)%nat <> 0 /\
    (kl <= 999)%nat /\
    holds_for env 1 (S (reads s + kl)) kh /\
    echo_level env (S (reads s + kl) + kh)%nat <> 1 /\
    stamp env (ticks s) kl (sonar_signal_off loc) = Some t_off /\
    stamp env (ticks s + kl) kh (sonar_signal_on loc) = Some t_on /\
    loc' = mkLocals (Some t_off) (Some t_on)
                    (sample loc ++ [distance_of v t_on t_off]) /\
    s' = after_read env pin (polled kh env pin (after_read env pin (polled kl env pin s))).
Proof.
  unfold time_echo. unfold bind at 1.
  pose proof (wait_low_outcome env pin fuel 1 (sonar_signal_off loc) s) as Hl.
  destruct (wait_low fuel env pin 1 (sonar_signal_off loc) s) as [off s1|e s1|s1];
    try discriminate.
  destruct Hl as (kl & Hlow & Hrise & Hkl & _ & Hoff & Hs1); [lia|].
  unfold bind at 1.
  pose proof (wait_high_outcome env pin fuel (sonar_signal_on loc) s1) as Hh.
  destruct (wait_high fuel env pin (sonar_signal_on loc) s1) as [on s2|e s2|s2];
    try discriminate.
  destruct Hh as (kh & Hhigh & Hfall & _ & Hon & Hs2).
  assert (Hr : reads s1 = S (reads s + kl)).
  { rewrite Hs1. simpl. now rewrite reads_polled. }
  assert (Ht : ticks s1 = (ticks s + kl)%nat).
  { rewrite Hs1. simpl. now rewrite ticks_polled. }
  rewrite Hr in Hhigh, Hfall. rewrite Ht in Hon.
  unfold bind, load, ret, raise.
  destruct on as [t_on|]; [|discriminate].
  destruct off as [t_off|]; [|discriminate].
  intros Heq. injection Heq as Hloc Hs'.
  exists kl, kh, t_off, t_on. subst s1.
  repeat split; auto; try lia; congruence.
Qed.

(** The loop body either fails or appends exactly one distance. *)
Lemma reading_ok fuel env v w loc s loc' s' :
  reading fuel env v w loc s = Ok loc' s' ->
  sleepable w = true /\
  time_echo fuel env (echo_pin (self s)) v loc (triggered w s) = Ok loc' s'.
Proof.
  intros H. destruct (sleepable w) eqn:Hw.
  - split; auto. now rewrite <- reading_triggered.
  - exfalso. revert H. unfold sleepable in Hw.
    unfold reading, bind, get_self, digital_write, emit, time_sleep.
    destruct (PrimFloat.is_nan w); [discriminate|].
    destruct (sleep_overflows w); [discriminate|].
    destruct (PrimFloat.ltb w 0); [discriminate|]. discriminate.
Qed.

Lemma self_time_echo fuel env pin v loc s loc' s' :
  time_echo fuel env pin v loc s = Ok loc' s' -> self s' = self s.
Proof.
  intros H. apply time_echo_ok in H.
  destruct H as (kl & kh & a & b & _ & _ & _ & _ & _ & _ & _ & _ & ->).
  simpl. rewrite self_polled. simpl. now rewrite self_polled.
Qed.

(* ================================================================= *)
(** ** The [for] loop *)

(** The loop appends one distance per pass. *)
Lemma readings_length n : forall fuel env v w loc s loc' s',
  readings n fuel env v w loc s = Ok loc' s' ->
  exists ds, sample loc' = sample loc ++ ds /\ List.length ds = n.
Proof.
  induction n as [|n IH]; intros fuel env v w loc s loc' s' H.
  - injection H as <- _. exists []. now rewrite app_nil_r.
  - simpl in H. unfold bind in H.
    destruct (reading fuel env v w loc s) as [loc1 s1|e s1|s1] eqn:E;
      try discriminate.
    apply reading_ok in E. destruct E as [_ E]. apply time_echo_ok in E.
    destruct E as (kl & kh & a & b & _ & _ & _ & _ & _ & _ & _ & Hloc & _).
    apply IH in H. destruct H as (ds & Hds & Hlen).
    exists (distance_of v b a :: ds). split.
    + rewrite Hds, Hloc. simpl. now rewrite <- app_assoc.
    + simpl. now rewrite Hlen.
Qed.

(** A pass that raises ends the loop with that exception. *)
Lemma readings_abort n fuel env v w loc s e s' :
  reading fuel env v w loc s = Raise e s' ->
  readings (S n) fuel env v w loc s = Raise e s'.
Proof. intros H. simpl. unfold bind. now rewrite H. Qed.

(** A pass that does not come back keeps the loop from coming back. *)
Lemma readings_hang n fuel env v w loc s s' :
  reading fuel env v w loc s = Running s' ->
  readings (S n) fuel env v w loc s = Running s'.
Proof. intros H. simpl. unfold bind. now rewrite H. Qed.

(* ================================================================= *)
(** ** Setting up a call *)

(** With a known unit the stored temperature becomes [T_celsius]. *)
Lemma normalize_temperature_known s :
  known_unit (unit (self s)) = true ->
  normalize_temperature s = Ok tt (normalized s).
Proof.
  intros H. unfold normalize_temperature, normalized, bind, get_self, T_celsius.
  destruct (String.eqb (unit (self s)) "imperial") eqn:E1; [reflexivity|].
  unfold known_unit in H. rewrite E1 in H. simpl in H. now rewrite H.
Qed.

(** With any other unit the call stops there, the state untouched. *)
Lemma normalize_temperature_unknown s :
  known_unit (unit (self s)) = false ->
  normalize_temperature s =
  Raise (ValueError "Wrong Unit Type. Unit Must be imperial or metric") s.
Proof.
  intros H. unfold normalize_temperature, bind, get_self.
  unfold known_unit in H. apply orb_false_elim in H. destruct H as [H1 H2].
  now rewrite H1, H2.
Qed.

Lemma temperature_normalized s :
  temperature (self (normalized s)) = T_celsius (self s).
Proof.
  unfold normalized, T_celsius.
  now destruct (String.eqb (unit (self s)) "imperial").
Qed.

Lemma trace_normalized s : trace (normalized s) = trace s.
Proof.
  unfold normalized. now destruct (String.eqb (unit (self s)) "imperial").
Qed.

Lemma reads_normalized s : reads (normalized s) = reads s.
Proof.
  unfold normalized. now destruct (String.eqb (unit (self s)) "imperial").
Qed.

Lemma ticks_normalized s : ticks (normalized s) = ticks s.
Proof.
  unfold normalized. now destruct (String.eqb (unit (self s)) "imperial").
Qed.

(** A temperature below absolute zero stops the call at [math.sqrt]. *)
Lemma raw_distance_domain_error fuel env n w s :
  known_unit (unit (self s)) = true ->
  sqrt_defined (T_celsius (self s)) = false ->
  raw_distance fuel env n w s =
  Raise (ValueError "math domain error") (normalized s).
Proof.
  intros Hu Hq. unfold raw_distance. unfold bind at 1.
  rewrite normalize_temperature_known by assumption.
  unfold sqrt_defined in Hq. apply negb_false_iff in Hq.
  unfold bind at 1. unfold compute_speed_of_sound.
  unfold bind at 1. unfold get_self at 1. unfold bind at 1.
  rewrite temperature_normalized. unfold math_sqrt. rewrite Hq.
  reflexivity.
Qed.

(** Past the unit check and [math.sqrt] the call stops at line 83: the
    local [GPIO] is read before anything was assigned to it.  No pin was
    acquired, the loop of lines 84-101 is not entered. *)
Lemma raw_distance_stops_at_line_83 fuel env n w s :
  known_unit (unit (self s)) = true ->
  sqrt_defined (T_celsius (self s)) = true ->
  raw_distance fuel env n w s =
  Raise (UnboundLocalError "GPIO") (normalized s).
Proof.
  intros Hu Hq. unfold raw_distance. cbv zeta. unfold bind at 1.
  rewrite normalize_temperature_known by assumption.
  unfold sqrt_defined in Hq. apply negb_true_iff in Hq.
  unfold bind at 1. unfold compute_speed_of_sound.
  unfold bind at 1. unfold get_self at 1. unfold bind at 1.
  rewrite temperature_normalized. unfold math_sqrt. rewrite Hq.
  reflexivity.
Qed.

(** Every call, by the three ways through its first lines. *)
Lemma raw_distance_outcome fuel env n w s :
  raw_distance fuel env n w s =
  if negb (known_unit (unit (self s))) then
    Raise (ValueError "Wrong Unit Type. Unit Must be imperial or metric") s
  else if negb (sqrt_defined (T_celsius (self s))) then
    Raise (ValueError "math domain error") (normalized s)
  else Raise (UnboundLocalError "GPIO") (normalized s).
Proof.
  destruct (known_unit (unit (self s))) eqn:Hu; simpl.
  - destruct (sqrt_defined (T_celsius (self s))) eqn:Hq; simpl.
    + now apply raw_distance_stops_at_line_83.
    + now apply raw_distance_domain_error.
  - unfold raw_distance. cbv zeta. unfold bind at 1.
    now rewrite normalize_temperature_unknown.
Qed.

(** Lines 72-80 with an accepted unit and temperature. *)
Lemma speed_of_sound_of_call_known s :
  known_unit (unit (self s)) = true ->
  sqrt_defined (T_celsius (self s)) = true ->
  speed_of_sound_of_call s =
  Ok (speed_formula (T_celsius (self s))) (normalized s).
Proof.
  intros Hu Hq. unfold speed_of_sound_of_call. unfold bind at 1.
  rewrite normalize_temperature_known by assumption.
  unfold sqrt_defined in Hq. apply negb_true_iff in Hq.
  unfold compute_speed_of_sound, bind, get_self.
  rewrite temperature_normalized. unfold math_sqrt. rewrite Hq.
  reflexivity.
Qed.

(** The call begins with lines 72-80. *)
Lemma raw_distance_begins fuel env n w s :
  raw_distance fuel env n w s =
  (speed_of_sound <- speed_of_sound_of_call ;;
   m <- get_self ;;
   with_GPIO None (pins m)
     (loc <- collect fuel env n w speed_of_sound ;;
      sorted_sample_middle (sample loc) n)) s.
Proof.
  unfold raw_distance, speed_of_sound_of_call. cbv zeta. unfold bind at 1 5 6.
  destruct (normalize_temperature s) as [[] s1|e s1|s1]; try reflexivity.
Qed.

(* ================================================================= *)
(** ** [sorted] and indexing *)

Lemma binary_insert_perm a pivot : Permutation (pivot :: a) (binary_insert a pivot).
Proof.
  unfold binary_insert.
  set (k := bisect (S (List.length a)) pivot a 0 (List.length a)).
  rewrite <- (firstn_skipn k a) at 1. apply Permutation_middle.
Qed.

Lemma fold_binary_insert_perm rest : forall acc,
  Permutation (acc ++ rest) (fold_left binary_insert rest acc).
Proof.
  induction rest as [|x rest IH]; intros acc; simpl.
  - now rewrite app_nil_r.
  - rewrite <- IH. rewrite <- binary_insert_perm.
    symmetry. apply Permutation_middle.
Qed.

(** [sorted] returns the elements it was given. *)
Lemma sorted_perm l : Permutation l (sorted l).
Proof.
  unfold sorted. destruct (count_run l) as [n descending].
  rewrite <- fold_binary_insert_perm.
  rewrite <- (firstn_skipn n l) at 1.
  apply Permutation_app_tail.
  destruct descending; [apply Permutation_rev | reflexivity].
Qed.

Lemma sorted_length l : List.length (sorted l) = List.length l.
Proof. symmetry. apply Permutation_length, sorted_perm. Qed.


(** [l[i]] inside the list. *)
Lemma getitem_inside l i s :
  0 <= i < Z.of_nat (List.length l) ->
  getitem l i s = Ok (nth (Z.to_nat i) l 0%float) s.
Proof.
  intros Hi. unfold getitem.
  destruct (i <? 0) eqn:E1; [apply Z.ltb_lt in E1; lia|].
  destruct (0 <=? i) eqn:E2; [|apply Z.leb_gt in E2; lia].
  destruct (i <? Z.of_nat (List.length l)) eqn:E3;
    [reflexivity | apply Z.ltb_ge in E3; lia].
Qed.

(* ================================================================= *)
(** ** Fuel *)

(** More fuel does not change a computation that came back. *)
Lemma bind_settled {A B} (c c' : M A) (k k' : A -> M B) s :
  (settled (c s) -> c' s = c s) ->
  (forall a s1, settled (k a s1) -> k' a s1 = k a s1) ->
  settled (bind c k s) -> bind c' k' s = bind c k s.
Proof.
  intros Hc Hk. unfold bind.
  destruct (c s) as [a s1|e s1|s1] eqn:E; simpl; intros Hs.
  - rewrite Hc by exact I. now apply Hk.
  - now rewrite Hc by exact I.
  - contradiction.
Qed.

Lemma wait_low_mono env pin : forall f f' c off s,
  (f <= f')%nat -> settled (wait_low f env pin c off s) ->
  wait_low f' env pin c off s = wait_low f env pin c off s.
Proof.
  induction f as [|f IH]; intros f' c off s Hle Hs; [contradiction|].
  destruct f' as [|f']; [lia|].
  simpl in *. unfold bind, digital_read in *.
  destruct (echo_level env (reads s) =? 0); [|reflexivity].
  destruct (c <? 1000); [|reflexivity].
  unfold time_time in *. apply IH; [lia | exact Hs].
Qed.

Lemma wait_high_mono env pin : forall f f' on s,
  (f <= f')%nat -> settled (wait_high f env pin on s) ->
  wait_high f' env pin on s = wait_high f env pin on s.
Proof.
  induction f as [|f IH]; intros f' on s Hle Hs; [contradiction|].
  destruct f' as [|f']; [lia|].
  simpl in *. unfold bind, digital_read in *.
  destruct (echo_level env (reads s) =? 1); [|reflexivity].
  unfold time_time in *. apply IH; [lia | exact Hs].
Qed.

Lemma time_echo_mono f f' env pin v loc s :
  (f <= f')%nat -> settled (time_echo f env pin v loc s) ->
  time_echo f' env pin v loc s = time_echo f env pin v loc s.
Proof.
  intros Hle. unfold time_echo. apply bind_settled.
  - now apply wait_low_mono.
  - intros off s1. apply bind_settled; [now apply wait_high_mono | reflexivity].
Qed.

Lemma reading_mono f f' env v w loc s :
  (f <= f')%nat -> settled (reading f env v w loc s) ->
  reading f' env v w loc s = reading f env v w loc s.
Proof.
  intros Hle. unfold reading.
  apply bind_settled; [reflexivity|]. intros m s0.
  do 5 (apply bind_settled; [reflexivity|]; intros ? ?).
  now apply time_echo_mono.
Qed.

Lemma readings_mono n : forall f f' env v w loc s,
  (f <= f')%nat -> settled (readings n f env v w loc s) ->
  readings n f' env v w loc s = readings n f env v w loc s.
Proof.
  induction n as [|n IH]; intros f f' env v w loc s Hle; [reflexivity|].
  simpl. apply bind_settled.
  - now apply reading_mono.
  - intros loc1 s1. now apply IH.
Qed.

(** With a thousand units of fuel the low loop always comes back. *)
Lemma wait_low_settles env pin fuel off s :
  (1000 <= fuel)%nat -> settled (wait_low fuel env pin 1 off s).
Proof.
  intros Hf. pose proof (wait_low_outcome env pin fuel 1 off s) as H.
  destruct (wait_low fuel env pin 1 off s); simpl; auto.
  destruct H as (_ & Hc & _); lia.
Qed.

(** The high loop comes back once it has fuel to reach the falling edge. *)
Lemma wait_high_settles env pin fuel on s k :
  echo_level env (reads s + k)%nat <> 1 -> (k < fuel)%nat ->
  settled (wait_high fuel env pin on s).
Proof.
  intros Hk Hf. pose proof (wait_high_outcome env pin fuel on s) as H.
  destruct (wait_high fuel env pin on s); simpl; auto.
  destruct H as (Hhigh & _). apply Hk, Hhigh, Hf.
Qed.

Lemma time_echo_settles env pin v loc s :
  echo_falls env ->
  exists fuel, settled (time_echo fuel env pin v loc s).
Proof.
  intros Hfalls. unfold time_echo.
  pose proof (wait_low_settles env pin 1000 (sonar_signal_off loc) s
                (Nat.le_refl _)) as Hl.
  destruct (wait_low 1000 env pin 1 (sonar_signal_off loc) s)
    as [off s1|e s1|s1] eqn:El; [| |contradiction].
  - destruct (Hfalls (reads s1)) as (k & Hk).
    exists (Nat.max 1000 (S k)). unfold bind at 1.
    assert (Hm : (1000 <= Nat.max 1000 (S k))%nat) by apply Nat.le_max_l.
    assert (Hset : settled (wait_low 1000 env pin 1 (sonar_signal_off loc) s))
      by (rewrite El; exact I).
    rewrite (wait_low_mono env pin 1000 _ 1 _ s Hm Hset).
    rewrite El. unfold bind at 1.
    pose proof (wait_high_settles env pin (Nat.max 1000 (S k))
                  (sonar_signal_on loc) s1 k Hk) as Hh.
    destruct (wait_high (Nat.max 1000 (S k)) env pin (sonar_signal_on loc) s1)
      as [on s2|e s2|s2]; [| |apply Hh; apply Nat.le_max_r].
    + unfold bind, load, ret, raise. destruct on, off; exact I.
    + exact I.
  - exists 1000%nat. unfold bind at 1. rewrite El. exact I.
Qed.


(* ================================================================= *)
(** ** The [for] loop, continued *)

(** The loop over [j + m] samples is the loop over [j] of them followed
    by the loop over the other [m]. *)
Lemma readings_app j m : forall fuel env v w loc s,
  readings (j + m) fuel env v w loc s =
  (loc' <- readings j fuel env v w loc ;; readings m fuel env v w loc') s.
Proof.
  induction j as [|j IH]; intros fuel env v w loc s; [reflexivity|].
  change (readings (S j + m) fuel env v w loc s)
    with ((loc1 <- reading fuel env v w loc ;;
           readings (j + m) fuel env v w loc1) s).
  simpl readings. unfold bind.
  destruct (reading fuel env v w loc s) as [loc1 s1|e s1|s1]; auto.
Qed.

(** The loop never touches the object. *)
Lemma self_readings n : forall fuel env v w loc s loc' s',
  readings n fuel env v w loc s = Ok loc' s' -> self s' = self s.
Proof.
  induction n as [|n IH]; intros fuel env v w loc s loc' s' H.
  - now injection H as _ <-.
  - simpl in H. unfold bind in H.
    destruct (reading fuel env v w loc s) as [loc1 s1|e s1|s1] eqn:E;
      try discriminate.
    apply IH in H. rewrite H.
    apply reading_ok in E. destruct E as [_ E].
    apply self_time_echo in E. now rewrite E.
Qed.

Lemma clocked_stamp env t0 k before :
  clocked env before -> clocked env (stamp env t0 k before).
Proof.
  intros Hb. destruct k as [|k]; simpl; [exact Hb|].
  intros x Hx. injection Hx as <-. now exists (t0 + k)%nat.
Qed.

(** Every distance the loop appends is the difference of two clock
    samples scaled by half the speed of sound in cm/s. *)
Lemma readings_samples n : forall fuel env v w loc s loc' s',
  clocked env (sonar_signal_off loc) -> clocked env (sonar_signal_on loc) ->
  readings n fuel env v w loc s = Ok loc' s' ->
  exists ds, sample loc' = sample loc ++ ds /\ List.length ds = n /\
    Forall (fun d => exists i j,
              d = distance_of v (wall_clock env i) (wall_clock env j)) ds.
Proof.
  induction n as [|n IH]; intros fuel env v w loc s loc' s' Hoff Hon H.
  - injection H as <- _. exists []. rewrite app_nil_r. auto.
  - simpl in H. unfold bind in H.
    destruct (reading fuel env v w loc s) as [loc1 s1|e s1|s1] eqn:E;
      try discriminate.
    apply reading_ok in E. destruct E as [_ E]. apply time_echo_ok in E.
    destruct E as (kl & kh & a & b & _ & _ & _ & _ & _ & Ha & Hb & Hloc & _).
    assert (Ca : clocked env (Some a)).
    { rewrite <- Ha. now apply clocked_stamp. }
    assert (Cb : clocked env (Some b)).
    { rewrite <- Hb. now apply clocked_stamp. }
    apply IH in H; [| rewrite Hloc; exact Ca | rewrite Hloc; exact Cb].
    destruct H as (ds & Hds & Hlen & Hall).
    exists (distance_of v b a :: ds). repeat split.
    + rewrite Hds, Hloc. simpl. now rewrite <- app_assoc.
    + simpl. now rewrite Hlen.
    + constructor; [|exact Hall].
      destruct (Ca a eq_refl) as (j & ->). destruct (Cb b eq_refl) as (i & ->).
      now exists i, j.
Qed.

(** A pass over a clean echo completes, with both timestamps taken in
    that pass. *)
Lemma reading_clean fuel env v w loc s a b :
  sleepable w = true ->
  holds_for env 0 (reads s) (S a) ->
  echo_level env (reads s + S a)%nat <> 0 ->
  (S a <= 999)%nat ->
  holds_for env 1 (S (reads s + S a)) (S b) ->
  echo_level env (S (reads s + S a) + S b)%nat <> 1 ->
  (S a < fuel)%nat -> (S b < fuel)%nat ->
  exists loc' s',
    reading fuel env v w loc s = Ok loc' s' /\
    reads s' = S (S (reads s + S a) + S b) /\
    sample loc' =
      sample loc ++ [distance_of v (wall_clock env (ticks s + S a + b)%nat)
                                   (wall_clock env (ticks s + a)%nat)].
Proof.
  intros Hw Hlow Hrise Ha Hhigh Hfall Hf1 Hf2.
  rewrite reading_triggered by assumption.
  rewrite (time_echo_run fuel env _ v loc (triggered w s) (S a) (S b));
    rewrite ?reads_triggered; auto.
  rewrite ticks_triggered. simpl stamp. unfold bind, load, ret.
  do 2 eexists. split; [reflexivity|]. split; [|reflexivity].
  unfold after_read. cbn [reads]. rewrite reads_polled.
  cbn [reads]. rewrite reads_polled, reads_triggered. reflexivity.
Qed.

(** Over clean echoes the loop completes, given enough fuel. *)
Lemma readings_clean env v w n : forall loc s,
  sleepable w = true ->
  clean_echoes env (reads s) n ->
  exists fuel loc' s', readings n fuel env v w loc s = Ok loc' s'.
Proof.
  induction n as [|n IH]; intros loc s Hw Hclean.
  - exists 0%nat, loc, s. reflexivity.
  - destruct Hclean as (a & b & Ha & Hlow & Hrise & Hhigh & Hfall & Hrest).
    destruct (reading_clean (S (Nat.max (S a) (S b))) env v w loc s a b)
      as (loc1 & s1 & Hread & Hreads & _); auto; try lia.
    rewrite <- Hreads in Hrest.
    destruct (IH loc1 s1 Hw Hrest) as (f2 & loc' & s' & Hloop).
    set (f1 := S (Nat.max (S a) (S b))) in *.
    exists (Nat.max f1 f2), loc', s'. cbn [readings]. unfold bind.
    assert (S1 : settled (reading f1 env v w loc s)) by (rewrite Hread; exact I).
    rewrite (reading_mono f1 _ env v w loc s (Nat.le_max_l f1 f2) S1), Hread.
    assert (S2 : settled (readings n f2 env v w loc1 s1))
      by (rewrite Hloop; exact I).
    now rewrite (readings_mono n f2 _ env v w loc1 s1 (Nat.le_max_r f1 f2) S2).
Qed.

(* ================================================================= *)
(** ** The properties of the specification *)

(** C1.  The code does not do what the claim says.  [as GPIO] in line 83
    makes [GPIO] a local variable of [raw_distance], so the call
    [GPIO(self.pins)] reads an unassigned local and raises
    [UnboundLocalError]: no call ever returns a value, and with
    [sample_size = 4] on a default object the call stops at line 83
    whatever the echo does.  Lines 102-106 by themselves do pick index
    [sample_size // 2] of the sorted list: from [5.0; 6.0; 7.0; 8.0] with
    [sample_size = 4] they select [7.0], which is not the mean [6.5] of
    the two middle elements. *)
Theorem raw_distance_returns_no_distance :
  (forall fuel env n w s v s', raw_distance fuel env n w s <> Ok v s') /\
  (forall fuel env w,
     raw_distance fuel env 4 w (boot metric_sensor) =
     Raise (UnboundLocalError "GPIO") (boot metric_sensor)) /\
  (forall s, sorted_sample_middle [5; 6; 7; 8]%float 4 s = Ok 7%float s) /\
  PrimFloat.eqb 7 ((6 + 7) / 2) = false.
Proof.
  split; [|split; [|split; reflexivity]].
  - intros fuel env n w s v s'. rewrite raw_distance_outcome.
    destruct (negb (known_unit (unit (self s)))); [discriminate|].
    destruct (negb (sqrt_defined (T_celsius (self s)))); discriminate.
  - intros fuel env w.
    rewrite raw_distance_stops_at_line_83; vm_compute; reflexivity.
Qed.

(** C2, as the specification states it, fails: constructing with the unit
    ["kelvin"] returns an object and raises nothing. *)
Lemma construction_accepts_unknown_unit :
  known_unit "kelvin" = false /\
  __init__ 36 13 20%float "kelvin" 1 = inr kelvin_sensor /\
  forall e, __init__ 36 13 20%float "kelvin" 1 <> inl e.
Proof. repeat split. intros e He. discriminate He. Qed.

(** C2, amended.  [Measurement.__init__] accepts every unit and stores it
    unchecked; for a unit other than ["metric"] and ["imperial"] it is
    each call of [raw_distance] on the object that raises the
    [ValueError], and it does so before anything else happens: the state,
    the object and the I/O trace are those of the moment of the call. *)
Theorem unit_checked_by_raw_distance trig echo temp u rnd :
  exists m,
    __init__ trig echo temp u rnd = inr m /\ unit m = u /\
    (known_unit u = false ->
     forall fuel env n w s, self s = m ->
       raw_distance fuel env n w s =
       Raise (ValueError "Wrong Unit Type. Unit Must be imperial or metric") s).
Proof.
  eexists. split; [reflexivity|]. split; [reflexivity|].
  intros Hu fuel env n w s Hs.
  unfold raw_distance. unfold bind at 1.
  rewrite normalize_temperature_unknown; [reflexivity|].
  rewrite Hs. exact Hu.
Qed.

(** C2 amended, on the bench: the unit ["kelvin"]. *)
Lemma unit_checked_by_raw_distance_witness :
  exists m,
    __init__ 36 13 20%float "kelvin" 1 = inr m /\
    raw_distance 10 clean_echo 4 0.1%float (boot m) =
    Raise (ValueError "Wrong Unit Type. Unit Must be imperial or metric") (boot m).
Proof.
  destruct (unit_checked_by_raw_distance 36 13 20%float "kelvin" 1)
    as (m & Hm & _ & Hraise).
  exists m. split; [exact Hm|].
  apply Hraise; reflexivity.
Defined.

(** C8.  The four conversion methods return [round] of the stated
    expression at the configured precision and leave the state, the
    object included, as it was: their result depends on nothing but
    their numeric arguments and [round_to]. *)
Theorem conversions_round_and_keep_state
    (round : float -> Z -> float) (raw_cm hole_depth : float) (s : State) :
  distance_metric round raw_cm s =
    Ok (round raw_cm (round_to (self s))) s /\
  distance_imperial round raw_cm s =
    Ok (round (raw_cm * 0.394)%float (round_to (self s))) s /\
  depth_metric round raw_cm hole_depth s =
    Ok (round (hole_depth - raw_cm)%float (round_to (self s))) s /\
  depth_imperial round raw_cm hole_depth s =
    Ok (round (hole_depth - raw_cm * 0.394)%float (round_to (self s))) s.
Proof. repeat split. Qed.

(** C9.  Called on an object whose unit is neither ["metric"] nor
    ["imperial"], [raw_distance] raises the [ValueError] of line 77 in
    the very state it was called in: nothing was appended to the I/O
    trace, so no pin was acquired, written or read, and no reading or
    clock sample was consumed. *)
Theorem unknown_unit_raises_before_pins fuel env n w s :
  unit (self s) <> "imperial"%string ->
  unit (self s) <> "metric"%string ->
  raw_distance fuel env n w s =
  Raise (ValueError "Wrong Unit Type. Unit Must be imperial or metric") s.
Proof.
  intros Hi Hm. unfold raw_distance. unfold bind at 1.
  rewrite normalize_temperature_unknown; [reflexivity|].
  unfold known_unit. apply orb_false_intro; now apply String.eqb_neq.
Qed.

(** C9, on the bench: the unit ["kelvin"]; the trace stays empty. *)
Lemma unknown_unit_raises_before_pins_witness :
  raw_distance 10 clean_echo 4 0.1%float (boot kelvin_sensor) =
  Raise (ValueError "Wrong Unit Type. Unit Must be imperial or metric")
        (boot kelvin_sensor) /\
  trace (boot kelvin_sensor) = [].
Proof.
  split; [|reflexivity].
  apply unknown_unit_raises_before_pins; simpl; discriminate.
Defined.

(** C3.  The claim does not hold of the code: line 73 assigns the
    converted value back to [self.temperature], so every call converts
    whatever the previous call left there.  On an imperial object
    configured at 68 degrees the first call works out its speed of sound
    at 20.0016 and stores that; the second call, whatever its arguments,
    converts 20.0016 again and works at (20.0016 - 32) x 0.5556, a
    temperature below freezing, hence at another speed of sound.  (Both
    calls then stop at line 83.) *)
Theorem imperial_temperature_converted_again fuel env n w fuel' env' n' w' :
  let s1 := final (raw_distance fuel env n w (boot imperial_sensor)) in
  let s2 := final (raw_distance fuel' env' n' w' s1) in
  temperature (self s1) = 20.0016%float /\
  temperature (self s2) = ((20.0016 - 32) * 0.5556)%float /\
  PrimFloat.eqb (temperature (self s2)) (temperature (self s1)) = false /\
  PrimFloat.ltb (temperature (self s2)) 0 = true /\
  speed_of_sound_of_call (boot imperial_sensor) =
    Ok (speed_formula 20.0016) s1 /\
  speed_of_sound_of_call s1 =
    Ok (speed_formula ((20.0016 - 32) * 0.5556)) s2 /\
  PrimFloat.eqb (speed_formula 20.0016)
                (speed_formula ((20.0016 - 32) * 0.5556)) = false.
Proof.
  intros s1 s2.
  assert (E1 : s1 = normalized (boot imperial_sensor)).
  { unfold s1. rewrite raw_distance_stops_at_line_83;
      [reflexivity | reflexivity | vm_compute; reflexivity]. }
  assert (E2 : s2 = normalized (normalized (boot imperial_sensor))).
  { unfold s2. rewrite E1. rewrite raw_distance_stops_at_line_83;
      [reflexivity | reflexivity | vm_compute; reflexivity]. }
  rewrite E2, E1. repeat split; vm_compute; reflexivity.
Qed.

(** C4.  Line 80 computes 331.3 x sqrt(1 + T / 273.15) from the
    temperature attribute as it is found at the call: T is the attribute
    for metric and (attribute - 32) x 0.5556 for imperial.  That is the
    configured temperature on the first call only.  An imperial object
    configured at 68 degrees gives T = 20.0016 on its first call; its
    second call finds 20.0016 in the attribute and works out the speed
    at (20.0016 - 32) x 0.5556, not at 20.0016.  No sample ever uses the
    speed: the call stops at line 83. *)
Theorem speed_of_sound_follows_stored_temperature fuel env n w s :
  known_unit (unit (self s)) = true ->
  sqrt_defined (T_celsius (self s)) = true ->
  let T := if String.eqb (unit (self s)) "imperial"
           then ((temperature (self s) - 32) * 0.5556)%float
           else temperature (self s) in
  speed_of_sound_of_call s =
    Ok (331.3 * PrimFloat.sqrt (1 + T / 273.15))%float (normalized s) /\
  raw_distance fuel env n w s =
    (speed_of_sound <- speed_of_sound_of_call ;;
     m <- get_self ;;
     with_GPIO None (pins m)
       (loc <- collect fuel env n w speed_of_sound ;;
        sorted_sample_middle (sample loc) n)) s /\
  raw_distance fuel env n w s =
    Raise (UnboundLocalError "GPIO") (normalized s) /\
  T_celsius imperial_sensor = 20.0016%float /\
  (let s1 := final (raw_distance fuel env n w (boot imperial_sensor)) in
   speed_of_sound_of_call (boot imperial_sensor) =
     Ok (331.3 * PrimFloat.sqrt (1 + 20.0016 / 273.15))%float s1 /\
   exists v2 s2,
     speed_of_sound_of_call s1 = Ok v2 s2 /\
     v2 = (331.3 * PrimFloat.sqrt (1 + ((20.0016 - 32) * 0.5556) / 273.15))%float /\
     PrimFloat.eqb v2 (331.3 * PrimFloat.sqrt (1 + 20.0016 / 273.15)) = false).
Proof.
  intros Hu Hq T.
  split; [now apply speed_of_sound_of_call_known|].
  split; [apply raw_distance_begins|].
  split; [now apply raw_distance_stops_at_line_83|].
  split; [vm_compute; reflexivity|].
  intros s1.
  assert (E1 : s1 = normalized (boot imperial_sensor)).
  { unfold s1. rewrite raw_distance_stops_at_line_83;
      [reflexivity | reflexivity | vm_compute; reflexivity]. }
  rewrite E1. split; [vm_compute; reflexivity|].
  do 2 eexists. split; [vm_compute; reflexivity|].
  split; vm_compute; reflexivity.
Qed.

(** C4, on the bench: the imperial object at 68 degrees, first call. *)
Lemma speed_of_sound_follows_stored_temperature_witness :
  speed_of_sound_of_call (boot imperial_sensor) =
  Ok (331.3 * PrimFloat.sqrt (1 + ((68 - 32) * 0.5556) / 273.15))%float
     (normalized (boot imperial_sensor)).
Proof.
  apply (speed_of_sound_follows_stored_temperature 10 clean_echo 3 0.1%float
           (boot imperial_sensor)); vm_compute; reflexivity.
Defined.

(** C5.  The low wait of lines 90-96 is bounded as the claim says:
    whatever the fuel, it has made at most 1000 reads when it stops, it
    raises only the [SystemError] "Echo pulse was not received" and only
    at the 1000th read, and 1000 low readings in a row make it raise.
    But no call reaches it: a call never raises that error, and on a
    sensor that never answers it stops at line 83 without one poll. *)
Theorem low_wait_bounded_but_never_reached :
  (forall fuel env pin off s,
     match wait_low fuel env pin 1 off s with
     | Ok _ s' => (reads s' <= reads s + 1000)%nat
     | Raise e s' =>
         e = SystemError "Echo pulse was not received" /\
         reads s' = (reads s + 1000)%nat
     | Running s' => (fuel < 1000)%nat /\ reads s' = (reads s + fuel)%nat
     end) /\
  (forall fuel env pin off s,
     (1000 <= fuel)%nat ->
     holds_for env 0 (reads s) 1000 ->
     exists s',
       wait_low fuel env pin 1 off s =
         Raise (SystemError "Echo pulse was not received") s' /\
       reads s' = (reads s + 1000)%nat) /\
  (forall fuel env n w s msg s',
     raw_distance fuel env n w s <> Raise (SystemError msg) s') /\
  (forall fuel w,
     raw_distance fuel silent_echo 3 w (boot metric_sensor) =
     Raise (UnboundLocalError "GPIO") (boot metric_sensor)).
Proof.
  split; [|split; [|split]].
  - intros fuel env pin off s.
    pose proof (wait_low_outcome env pin fuel 1 off s) as H.
    destruct (wait_low fuel env pin 1 off s) as [off' s'|e s'|s'].
    + destruct H as (k & _ & _ & Hk & _ & _ & ->); [lia|].
      simpl. rewrite reads_polled. lia.
    + destruct H as (k & _ & Hk & _ & -> & ->); [lia|].
      split; [reflexivity|]. simpl. rewrite reads_polled. lia.
    + destruct H as (_ & Hk & ->); [lia|].
      rewrite reads_polled. lia.
  - intros fuel env pin off s Hf Hlow.
    rewrite (wait_low_timeout env pin 999 fuel 1); [|exact Hlow|reflexivity|lia].
    eexists. split; [reflexivity|].
    unfold after_read. cbn [reads]. rewrite reads_polled. lia.
  - intros fuel env n w s msg s'. rewrite raw_distance_outcome.
    destruct (negb (known_unit (unit (self s)))); [discriminate|].
    destruct (negb (sqrt_defined (T_celsius (self s)))); discriminate.
  - intros fuel w.
    rewrite raw_distance_stops_at_line_83; vm_compute; reflexivity.
Qed.

(** C5, on the bench: the low wait entered on a sensor that never
    answers. *)
Lemma low_wait_bounded_but_never_reached_witness :
  exists s',
    wait_low 1000 silent_echo 13 1 None (boot metric_sensor) =
      Raise (SystemError "Echo pulse was not received") s' /\
    reads s' = 1000%nat.
Proof.
  apply (proj1 (proj2 low_wait_bounded_but_never_reached)
           1000%nat silent_echo 13 None (boot metric_sensor)).
  - lia.
  - intros k _. simpl. destruct k; reflexivity.
Defined.

(** C6.  The high wait of lines 97-98 has no bound and no timeout, as
    the claim says: while the echo pin reads high it uses up any fuel it
    is given, one read per unit, and it never raises.  But no call
    reaches it, so no call hangs: every call comes back whatever the
    fuel, and on an echo line stuck high it stops at line 83. *)
Theorem high_wait_unbounded_but_never_reached :
  (forall fuel env pin on s,
     holds_for env 1 (reads s) fuel ->
     wait_high fuel env pin on s = Running (polled fuel env pin s) /\
     reads (polled fuel env pin s) = (reads s + fuel)%nat) /\
  (forall fuel env pin on s e s',
     wait_high fuel env pin on s <> Raise e s') /\
  (forall fuel env n w s, settled (raw_distance fuel env n w s)) /\
  (forall fuel w,
     raw_distance fuel stuck_echo 1 w (boot metric_sensor) =
     Raise (UnboundLocalError "GPIO") (boot metric_sensor)).
Proof.
  split; [|split; [|split]].
  - intros fuel env pin on s Hhigh. split.
    + now apply wait_high_stuck.
    + apply reads_polled.
  - intros fuel env pin on s e s' H.
    pose proof (wait_high_outcome env pin fuel on s) as Ho.
    now rewrite H in Ho.
  - intros fuel env n w s. rewrite raw_distance_outcome.
    destruct (negb (known_unit (unit (self s)))); [exact I|].
    destruct (negb (sqrt_defined (T_celsius (self s)))); exact I.
  - intros fuel w.
    rewrite raw_distance_stops_at_line_83; vm_compute; reflexivity.
Qed.

(** C6, on the bench: the high wait entered after the echo line has
    risen for good. *)
Lemma high_wait_unbounded_but_never_reached_witness :
  wait_high 50 stuck_echo 13 None (mkState metric_sensor 2 0 []) =
    Running (polled 50 stuck_echo 13 (mkState metric_sensor 2 0 [])) /\
  reads (polled 50 stuck_echo 13 (mkState metric_sensor 2 0 [])) = 52%nat.
Proof.
  apply (proj1 high_wait_unbounded_but_never_reached
           50%nat stuck_echo 13 None (mkState metric_sensor 2 0 [])).
  intros i _. simpl. destruct i; reflexivity.
Defined.

(** C7.  Lines 90-101, when they complete, append exactly one distance,
    (sonar_signal_on - sonar_signal_off) x ((v x 100) / 2): a low loop
    that saw a low reading leaves in [sonar_signal_off] the clock sampled
    after the last low reading before the rising edge, a high loop that
    saw a high reading leaves in [sonar_signal_on] the clock sampled
    after the last high reading, and a loop that saw none leaves its
    variable as it was.  But no call reaches these lines: whatever
    [sample_size] is, a call reads neither the echo pin nor the clock and
    collects no distance; it stops at line 83. *)
Theorem sample_distance_computed_but_never_collected fuel env (v : float) :
  (forall pin loc s loc' s',
     time_echo fuel env pin v loc s = Ok loc' s' ->
     exists kl kh t_off t_on,
       holds_for env 0 (reads s) kl /\
       echo_level env (reads s + kl)%nat <> 0 /\
       holds_for env 1 (S (reads s + kl)) kh /\
       echo_level env (S (reads s + kl) + kh)%nat <> 1 /\
       (forall k, kl = S k -> t_off = wall_clock env (ticks s + k)%nat) /\
       (kl = 0%nat -> sonar_signal_off loc = Some t_off) /\
       (forall k, kh = S k -> t_on = wall_clock env (ticks s + kl + k)%nat) /\
       (kh = 0%nat -> sonar_signal_on loc = Some t_on) /\
       sonar_signal_off loc' = Some t_off /\
       sonar_signal_on loc' = Some t_on /\
       sample loc' =
         sample loc ++ [((t_on - t_off) * ((v * 100) / 2))%float]) /\
  (forall n w s,
     reads (final (raw_distance fuel env n w s)) = reads s /\
     ticks (final (raw_distance fuel env n w s)) = ticks s /\
     trace (final (raw_distance fuel env n w s)) = trace s) /\
  (forall n w,
     raw_distance fuel env n w (boot metric_sensor) =
     Raise (UnboundLocalError "GPIO") (boot metric_sensor)).
Proof.
  split; [|split].
  - intros pin loc s loc' s' H. apply time_echo_ok in H.
    destruct H as (kl & kh & t_off & t_on & Hlow & Hrise & _ & Hhigh & Hfall
                   & Hoff & Hon & -> & _).
    exists kl, kh, t_off, t_on. simpl.
    repeat split; auto.
    + intros k ->. simpl in Hoff. congruence.
    + intros ->. exact Hoff.
    + intros k ->. simpl in Hon. congruence.
    + intros ->. exact Hon.
  - intros n w s. rewrite raw_distance_outcome.
    destruct (negb (known_unit (unit (self s)))); [repeat split|].
    destruct (negb (sqrt_defined (T_celsius (self s)))); simpl;
      rewrite reads_normalized, ticks_normalized, trace_normalized;
      repeat split.
  - intros n w.
    rewrite raw_distance_stops_at_line_83; vm_compute; reflexivity.
Qed.

(** C7, on the bench: lines 90-101 entered on a clean echo. *)
Lemma sample_distance_computed_but_never_collected_witness :
  exists loc' s' t_off t_on,
    time_echo 10 clean_echo 13 343.2%float (mkLocals None None [])
              (boot metric_sensor) = Ok loc' s' /\
    sample loc' = [] ++ [((t_on - t_off) * ((343.2 * 100) / 2))%float].
Proof.
  eexists. eexists.
  match goal with
  | |- exists a b, ?run /\ _ => assert (E : run) by (vm_compute; reflexivity)
  end.
  destruct (proj1 (sample_distance_computed_but_never_collected
                     10 clean_echo 343.2%float) _ _ _ _ _ E)
    as (kl & kh & a & b & _ & _ & _ & _ & _ & _ & _ & _ & _ & _ & Hs).
  exists a, b. split; [exact E | exact Hs].
Defined.

(** C10.  Lines 90-101 behave as the claim says when they are entered
    with the echo pin already high at the first poll: the body of the low
    loop does not run and [sonar_signal_off] is not assigned.  With the
    two variables still unassigned, as in a first sample, line 99 raises
    [UnboundLocalError] (on [sonar_signal_off], or on [sonar_signal_on],
    the operand read first, when the high loop did not run either); after
    a completed pass nothing is raised and the timestamp left in
    [sonar_signal_off] is used for the distance and stays in the
    variable.  But no call reaches these lines: on such an echo the call
    stops at line 83, on the unassigned local [GPIO]. *)
Theorem early_echo_unbound_then_stale_but_never_reached fuel env pin (v : float) kh :
  (kh < fuel)%nat ->
  (forall s,
     echo_level env (reads s) <> 0 ->
     holds_for env 1 (S (reads s)) kh ->
     echo_level env (S (reads s) + kh)%nat <> 1 ->
     exists s',
       time_echo fuel env pin v (mkLocals None None []) s =
       Raise (UnboundLocalError
                (match kh with
                 | O => "sonar_signal_on"
                 | S _ => "sonar_signal_off"
                 end)) s') /\
  (forall loc0 s0 loc s1 s,
     time_echo fuel env pin v loc0 s0 = Ok loc s1 ->
     echo_level env (reads s) <> 0 ->
     holds_for env 1 (S (reads s)) kh ->
     echo_level env (S (reads s) + kh)%nat <> 1 ->
     exists t_off t_on s',
       sonar_signal_off loc = Some t_off /\
       stamp env (ticks s) kh (sonar_signal_on loc) = Some t_on /\
       time_echo fuel env pin v loc s =
       Ok (mkLocals (Some t_off) (Some t_on)
                    (sample loc ++ [((t_on - t_off) * ((v * 100) / 2))%float]))
          s') /\
  (forall fuel' n w,
     raw_distance fuel' early_echo n w (boot metric_sensor) =
     Raise (UnboundLocalError "GPIO") (boot metric_sensor)).
Proof.
  intros Hf. split; [|split].
  - intros s Hv Hhigh Hfall.
    rewrite (time_echo_run fuel env pin v _ s 0 kh);
      rewrite ?Nat.add_0_r; auto using holds_for_nil; try lia.
    destruct kh; simpl; unfold bind, load, raise; eexists; reflexivity.
  - intros loc0 s0 loc s1 s Hprev Hv Hhigh Hfall.
    apply time_echo_ok in Hprev.
    destruct Hprev as (kl0 & kh0 & a & b & _ & _ & _ & _ & _ & _ & _ & Hloc & _).
    rewrite (time_echo_run fuel env pin v _ s 0 kh);
      rewrite ?Nat.add_0_r; auto using holds_for_nil; try lia.
    subst loc. simpl.
    destruct kh as [|kh]; simpl; unfold bind, load, ret;
      do 3 eexists; repeat split.
  - intros fuel' n w.
    rewrite raw_distance_stops_at_line_83; vm_compute; reflexivity.
Qed.

(** C10, on the bench: lines 90-101 entered on an echo that is already
    high, first with the variables unassigned, then after a clean pass. *)
Lemma early_echo_unbound_then_stale_but_never_reached_witness :
  (exists s',
     time_echo 10 early_echo 13 343.2%float (mkLocals None None [])
               (boot metric_sensor) =
     Raise (UnboundLocalError "sonar_signal_off") s') /\
  (exists loc s t_off t_on s',
     time_echo 10 late_early_echo 13 343.2%float (mkLocals None None [])
               (boot metric_sensor) = Ok loc s /\
     sonar_signal_off loc = Some t_off /\
     time_echo 10 late_early_echo 13 343.2%float loc s =
     Ok (mkLocals (Some t_off) (Some t_on)
                  (sample loc ++ [((t_on - t_off) * ((343.2 * 100) / 2))%float]))
        s').
Proof.
  split.
  - apply (proj1 (early_echo_unbound_then_stale_but_never_reached
                    10 early_echo 13 343.2%float 1 ltac:(lia))
             (boot metric_sensor)); try discriminate.
    intros k Hk. destruct k; [reflexivity | lia].
  - eexists. eexists.
    match goal with
    | |- exists a b c, ?run /\ _ =>
        assert (E : run) by (vm_compute; reflexivity)
    end.
    match type of E with
    | _ = Ok ?l ?st =>
        destruct (proj1 (proj2 (early_echo_unbound_then_stale_but_never_reached
                                  10 late_early_echo 13 343.2%float 1 ltac:(lia)))
                    _ _ l st st E)
          as (t_off & t_on & s' & Hoff & _ & Hrun)
    end.
    + vm_compute. discriminate.
    + intros k Hk. destruct k; [reflexivity | lia].
    + vm_compute. discriminate.
    + exists t_off, t_on, s'. repeat split; assumption.
Defined.

(* ================================================================= *)
(** ** What a call does to the object *)

Lemma measurement_eta m :
  mkMeasurement (trig_pin m) (echo_pin m) (temperature m) (unit m)
                (round_to m) (pins m) = m.
Proof. now destruct m. Qed.

(** However a call stops, the object it leaves is the one it found with
    [T_celsius] in the temperature attribute. *)
Lemma self_final_raw_distance fuel env n w s :
  self (final (raw_distance fuel env n w s)) =
  mkMeasurement (trig_pin (self s)) (echo_pin (self s)) (T_celsius (self s))
                (unit (self s)) (round_to (self s)) (pins (self s)).
Proof.
  assert (Hn : self (normalized s) =
               mkMeasurement (trig_pin (self s)) (echo_pin (self s))
                 (T_celsius (self s)) (unit (self s)) (round_to (self s))
                 (pins (self s))).
  { unfold normalized, T_celsius.
    destruct (String.eqb (unit (self s)) "imperial"); [reflexivity|].
    symmetry. apply measurement_eta. }
  rewrite raw_distance_outcome.
  destruct (known_unit (unit (self s))) eqn:Hu; simpl.
  - destruct (sqrt_defined (T_celsius (self s))); simpl; exact Hn.
  - unfold known_unit in Hu. apply orb_false_elim in Hu. destruct Hu as [Hi _].
    unfold T_celsius. rewrite Hi. symmetry. apply measurement_eta.
Qed.

(* ================================================================= *)
(** ** Further properties of the class *)

(** X1.  No call of [raw_distance] returns a value or touches a pin,
    whatever [sample_size] (zero and negative included), [sample_wait]
    and the echo line are.  A call raises the unit error, or the domain
    error of [math.sqrt], or else [UnboundLocalError] on the local [GPIO]
    at line 83; in each case the I/O trace is the one it found, and no
    reading of the echo pin and no clock sample was consumed. *)
Theorem call_never_reaches_the_pins fuel env n w s :
  raw_distance fuel env n w s =
    (if negb (known_unit (unit (self s))) then
       Raise (ValueError "Wrong Unit Type. Unit Must be imperial or metric") s
     else if negb (sqrt_defined (T_celsius (self s))) then
       Raise (ValueError "math domain error") (normalized s)
     else Raise (UnboundLocalError "GPIO") (normalized s)) /\
  trace (final (raw_distance fuel env n w s)) = trace s /\
  reads (final (raw_distance fuel env n w s)) = reads s /\
  ticks (final (raw_distance fuel env n w s)) = ticks s.
Proof.
  split; [apply raw_distance_outcome|].
  rewrite raw_distance_outcome.
  destruct (negb (known_unit (unit (self s)))); [repeat split|].
  destruct (negb (sqrt_defined (T_celsius (self s)))); simpl;
    rewrite trace_normalized, reads_normalized, ticks_normalized;
    repeat split.
Qed.

(** X2.  When the temperature makes [1 + T/273.15] negative, [math.sqrt]
    raises [ValueError] ("math domain error") before the pins are
    acquired: the I/O trace and the counters are untouched.  By then line
    73 has already run, so an imperial object keeps the converted
    temperature although the call failed; a metric object is unchanged. *)
Theorem impossible_temperature_raises_before_pins fuel env n w s :
  known_unit (unit (self s)) = true ->
  sqrt_defined (T_celsius (self s)) = false ->
  raw_distance fuel env n w s =
    Raise (ValueError "math domain error") (normalized s) /\
  trace (normalized s) = trace s /\
  reads (normalized s) = reads s /\
  ticks (normalized s) = ticks s /\
  (unit (self s) = "imperial"%string ->
   temperature (self (normalized s)) =
   fahrenheit_to_celsius (temperature (self s))) /\
  (unit (self s) = "metric"%string -> normalized s = s).
Proof.
  intros Hu Hq. repeat split.
  - now apply raw_distance_domain_error.
  - apply trace_normalized.
  - apply reads_normalized.
  - apply ticks_normalized.
  - intros Hi. rewrite temperature_normalized. unfold T_celsius.
    now rewrite Hi.
  - intros Hm. unfold normalized. now rewrite Hm.
Qed.

(** X2, on the bench: minus 300 degrees Celsius, minus 500 Fahrenheit. *)
Lemma impossible_temperature_raises_before_pins_witness :
  raw_distance 10 clean_echo 3 0.1%float (boot frozen_sensor) =
    Raise (ValueError "math domain error") (boot frozen_sensor) /\
  raw_distance 10 clean_echo 3 0.1%float (boot frozen_imperial_sensor) =
    Raise (ValueError "math domain error")
          (normalized (boot frozen_imperial_sensor)).
Proof.
  split.
  - apply (impossible_temperature_raises_before_pins 10 clean_echo 3 0.1%float
             (boot frozen_sensor)); vm_compute; reflexivity.
  - apply (impossible_temperature_raises_before_pins 10 clean_echo 3 0.1%float
             (boot frozen_imperial_sensor)); vm_compute; reflexivity.
Defined.

(** X4.  However a call of [raw_distance] stops (it returns, it raises
    at any point, or it is still polling), it has changed nothing in the
    object but the temperature: the two pins, the unit, the rounding
    precision and the pin list are as before, and the temperature is
    converted once if the unit is ["imperial"] and untouched otherwise. *)
Theorem call_changes_only_the_temperature fuel env n w s :
  let m' := self (final (raw_distance fuel env n w s)) in
  trig_pin m' = trig_pin (self s) /\
  echo_pin m' = echo_pin (self s) /\
  unit m' = unit (self s) /\
  round_to m' = round_to (self s) /\
  pins m' = pins (self s) /\
  temperature m' =
    if String.eqb (unit (self s)) "imperial"
    then fahrenheit_to_celsius (temperature (self s))
    else temperature (self s).
Proof.
  intros m'. unfold m'. rewrite self_final_raw_distance. simpl.
  repeat split.
Qed.



(** X8.  Calls of [raw_distance] in a row on the same object, whatever
    their arguments and however each one ends, never change the pins, the
    unit, the rounding precision or the pin list.  On an object whose
    unit is not ["imperial"] they do not change the temperature either;
    on an imperial object each call converts the stored temperature once
    more, so after [k] calls it has been converted [k] times. *)
Theorem repeated_calls_convert_repeatedly calls s :
  let m' := self (call_again calls s) in
  trig_pin m' = trig_pin (self s) /\
  echo_pin m' = echo_pin (self s) /\
  unit m' = unit (self s) /\
  round_to m' = round_to (self s) /\
  pins m' = pins (self s) /\
  temperature m' =
    if String.eqb (unit (self s)) "imperial"
    then Nat.iter (List.length calls) fahrenheit_to_celsius (temperature (self s))
    else temperature (self s).
Proof.
  revert s. induction calls as [|[[[fuel env] n] w] rest IH]; intros s.
  - simpl. destruct (String.eqb (unit (self s)) "imperial"); repeat split.
  - simpl call_again. specialize (IH (final (raw_distance fuel env n w s))).
    rewrite self_final_raw_distance in IH. simpl in IH.
    destruct IH as (Ht & He & Hu & Hr & Hp & HT).
    repeat split; auto.
    cbv zeta. rewrite HT. unfold T_celsius.
    destruct (String.eqb (unit (self s)) "imperial"); [|reflexivity].
    simpl List.length. rewrite Nat.iter_succ_r. reflexivity.
Qed.

